(** * xhub-chat-docs: the documentation site's components and configuration

  A shallow embedding of the code of the documentation site that carries
  logic or checkable structure:

  - [ScrollProgress] (src/components/ScrollProgress/index.tsx): the scroll
    percentage computed by [handleScroll] and the window listener installed
    and removed by its mount effect;
  - [ShinyText] (src/components/shinyText): the rendered class string and
    animation duration;
  - [CatButton] (src/components/catButton/index.tsx): the navigation that
    its [onStateChange] callback schedules;
  - [HomepageFeatures]: the row of feature cards;
  - the prop type declarations of the React components;
  - the [sidebars] configuration object (sidebars.ts), and the navbar and
    footer links of the site configuration that refer to it.

  JavaScript numbers are modelled twice.  [JSNumber.number] is the value
  space of an ECMAScript Number whose finite values are exact rationals:
  NaN and the two infinities are kept, rounding, overflow and the sign of
  zero are not.  [Binary64] runs the same expressions on IEEE 754 binary64
  values, which is what a JavaScript engine computes with; it is used for
  evaluation at concrete inputs. *)

From Stdlib Require Import QArith Qminmax Lqa Floats.
From stdpp Require Import base strings pretty list gmap.

(** ** ECMAScript numbers over exact rationals *)

Module JSNumber.

Inductive number : Type :=
| NaN
| NegInfinity
| Finite (q : Q)
| PosInfinity.

(** Sign of a rational, used by the infinite cases below. *)
Definition Qsign (q : Q) : comparison := (q ?= 0)%Q.

(** [Number::unaryMinus]. *)
Definition neg (x : number) : number :=
  match x with
  | NaN => NaN
  | NegInfinity => PosInfinity
  | Finite q => Finite (- q)
  | PosInfinity => NegInfinity
  end.

(** [Number::add]: opposite infinities give NaN. *)
Definition add (x y : number) : number :=
  match x, y with
  | NaN, _ | _, NaN => NaN
  | PosInfinity, NegInfinity | NegInfinity, PosInfinity => NaN
  | PosInfinity, _ | _, PosInfinity => PosInfinity
  | NegInfinity, _ | _, NegInfinity => NegInfinity
  | Finite a, Finite b => Finite (a + b)
  end.

(** [Number::subtract] is [x + (-y)]. *)
Definition sub (x y : number) : number := add x (neg y).

(** An infinity of the sign of [c]; a zero sign is the NaN of
    [0 * Infinity]. *)
Definition signed_inf (c : comparison) : number :=
  match c with
  | Lt => NegInfinity
  | Eq => NaN
  | Gt => PosInfinity
  end.

(** [Number::multiply]. *)
Definition mul (x y : number) : number :=
  match x, y with
  | NaN, _ | _, NaN => NaN
  | Finite a, Finite b => Finite (a * b)
  | Finite a, PosInfinity | PosInfinity, Finite a => signed_inf (Qsign a)
  | Finite a, NegInfinity | NegInfinity, Finite a => signed_inf (CompOpp (Qsign a))
  | PosInfinity, PosInfinity | NegInfinity, NegInfinity => PosInfinity
  | PosInfinity, NegInfinity | NegInfinity, PosInfinity => NegInfinity
  end.

(** [Number::divide]: a finite dividend over zero is NaN when the dividend
    is zero and an infinity of the dividend's sign otherwise; infinity over
    infinity is NaN; finite over infinity is zero. *)
Definition div (x y : number) : number :=
  match x, y with
  | NaN, _ | _, NaN => NaN
  | Finite a, Finite b =>
      if Qeq_bool b 0 then signed_inf (Qsign a) else Finite (a / b)
  | Finite _, (PosInfinity | NegInfinity) => Finite 0
  | (PosInfinity | NegInfinity), (PosInfinity | NegInfinity) => NaN
  | PosInfinity, Finite b => if Qle_bool 0 b then PosInfinity else NegInfinity
  | NegInfinity, Finite b => if Qle_bool 0 b then NegInfinity else PosInfinity
  end.

(** [Math.min] of two arguments: NaN if either is NaN, else the smaller. *)
Definition Math_min (x y : number) : number :=
  match x, y with
  | NaN, _ | _, NaN => NaN
  | NegInfinity, _ | _, NegInfinity => NegInfinity
  | PosInfinity, z | z, PosInfinity => z
  | Finite a, Finite b => if Qle_bool a b then Finite a else Finite b
  end.

(** [Math.max] of two arguments. *)
Definition Math_max (x y : number) : number :=
  match x, y with
  | NaN, _ | _, NaN => NaN
  | PosInfinity, _ | _, PosInfinity => PosInfinity
  | NegInfinity, z | z, NegInfinity => z
  | Finite a, Finite b => if Qle_bool a b then Finite b else Finite a
  end.

(** Numeric equality of the values: rationals up to [Qeq], NaN with itself
    (this is identity of the value, not the [===] of the language). *)
Definition number_eq (x y : number) : Prop :=
  match x, y with
  | NaN, NaN | NegInfinity, NegInfinity | PosInfinity, PosInfinity => True
  | Finite a, Finite b => (a == b)%Q
  | _, _ => False
  end.

(** [x <= y] as the language's [<=]: false as soon as one side is NaN. *)
Definition le (x y : number) : Prop :=
  match x, y with
  | NaN, _ | _, NaN => False
  | NegInfinity, _ | _, PosInfinity => True
  | Finite a, Finite b => (a <= b)%Q
  | _, _ => False
  end.

(** [x < y] as the language's [<]. *)
Definition lt (x y : number) : Prop :=
  match x, y with
  | NaN, _ | _, NaN => False
  | NegInfinity, NegInfinity | PosInfinity, PosInfinity => False
  | NegInfinity, _ | _, PosInfinity => True
  | Finite a, Finite b => (a < b)%Q
  | _, _ => False
  end.

Definition is_NaN (x : number) : bool :=
  match x with NaN => true | _ => false end.

(** A number of the closed interval [[lo, hi]]. *)
Definition in_interval (lo hi : Q) (x : number) : Prop :=
  le (Finite lo) x /\ le x (Finite hi).

End JSNumber.

Import JSNumber.

Infix "=n=" := number_eq (at level 70, no associativity).

(** ** The same operations on IEEE 754 binary64 values *)

Module Binary64.

(** [Math.min]: NaN if either argument is NaN; of two equal arguments
    (which can only differ as [-0] and [+0]) the negative one. *)
Definition Math_min (x y : float) : float :=
  if PrimFloat.is_nan x then x
  else if PrimFloat.is_nan y then y
  else if PrimFloat.ltb x y then x
  else if PrimFloat.ltb y x then y
  else if PrimFloat.get_sign x then x else y.

(** [handleScroll], lines 25-29, up to the argument of
    [setScrollProgress]. *)
Definition handleScroll (windowHeight documentHeight scrollTop : float) : float :=
  let scrollPercentage :=
    PrimFloat.mul
      (PrimFloat.div scrollTop (PrimFloat.sub documentHeight windowHeight))
      100%float in
  Math_min scrollPercentage 100%float.

End Binary64.

(** ** ScrollProgress *)

Module ScrollProgress.

(** What [handleScroll] reads: [window.innerHeight],
    [document.documentElement.scrollHeight] and [window.scrollY], under the
    names of its local constants.  The DOM returns finite numbers. *)
Record ScrollState : Type := {
  windowHeight : Q;
  documentHeight : Q;
  scrollTop : Q
}.

(** The component's state, [useState(0)]. *)
Record State : Type := { scrollProgress : number }.

Definition initial : State := {| scrollProgress := Finite 0 |}.

Definition setScrollProgress (v : number) (_ : State) : State :=
  {| scrollProgress := v |}.

(** Line 28. *)
Definition scrollPercentage (s : ScrollState) : number :=
  mul (div (Finite (scrollTop s))
           (sub (Finite (documentHeight s)) (Finite (windowHeight s))))
      (Finite 100).

(** Lines 24-30. *)
Definition handleScroll (s : ScrollState) (st : State) : State :=
  setScrollProgress (Math_min (scrollPercentage s) (Finite 100)) st.

(** The specification's reading of the stored value: the percentage clamped
    to [[0, 100]], that is bounded from below by 0 and from above by 100. *)
Definition clamped_progress (s : ScrollState) : number :=
  Math_min (Math_max (scrollPercentage s) (Finite 0)) (Finite 100).

(** *** The window's event listeners

    An event listener of the DOM is identified by its type, its callback
    (a function object, here its identity) and its capture flag. *)
Record EventListener : Type := {
  type : string;
  callback : nat;
  capture : bool
}.

#[global] Instance EventListener_eq_dec : EqDecision EventListener.
Proof. solve_decision. Defined.

Record Window : Type := {
  metrics : ScrollState;
  listeners : list EventListener
}.

(** [addEventListener]: appended unless an identical listener is there. *)
Definition addEventListener (l : EventListener) (w : Window) : Window :=
  {| metrics := metrics w;
     listeners := if decide (l ∈ listeners w) then listeners w
                  else listeners w ++ [l] |}.

Fixpoint remove_listener (l : EventListener) (ls : list EventListener)
  : list EventListener :=
  match ls with
  | [] => []
  | x :: r => if decide (x = l) then r else x :: remove_listener l r
  end.

(** [removeEventListener]: the identical listener, if any, is removed. *)
Definition removeEventListener (l : EventListener) (w : Window) : Window :=
  {| metrics := metrics w; listeners := remove_listener l (listeners w) |}.

(** A mounted instance: its state and the identity of the [handleScroll]
    closure that its effect created (the cleanup function captures it). *)
Record Instance : Type := {
  state : State;
  handler : nat
}.

(** The listener of lines 32 and 35: type ['scroll'], no options. *)
Definition scroll_listener (h : nat) : EventListener :=
  {| type := "scroll"; callback := h; capture := false |}.

(** The effect of lines 23-36, run once on mount ([[]] dependencies): [h]
    is the identity of the closure it creates. *)
Definition mount (h : nat) (w : Window) : Window * Instance :=
  let w' := addEventListener (scroll_listener h) w in
  (w', {| state := handleScroll (metrics w') initial; handler := h |}).

(** The cleanup function of line 35, run on unmount. *)
Definition unmount (w : Window) (i : Instance) : Window :=
  removeEventListener (scroll_listener (handler i)) w.

(** What can happen to the window while the component is mounted: the
    page scrolls or resizes to new metrics and a scroll event is dispatched,
    or other code adds or removes a listener. *)
Inductive action : Type :=
| Scroll (m : ScrollState)
| Add (l : EventListener)
| Remove (l : EventListener).

(** Dispatch of a scroll event to the instance: its handler runs if its
    listener is registered. *)
Definition dispatch_scroll (w : Window) (i : Instance) : Instance :=
  if decide (scroll_listener (handler i) ∈ listeners w)
  then {| state := handleScroll (metrics w) (state i); handler := handler i |}
  else i.

Definition step (a : action) (wi : Window * Instance) : Window * Instance :=
  let (w, i) := wi in
  match a with
  | Scroll m =>
      let w' := {| metrics := m; listeners := listeners w |} in
      (w', dispatch_scroll w' i)
  | Add l => (addEventListener l w, i)
  | Remove l => (removeEventListener l w, i)
  end.

Definition run (tr : list action) (wi : Window * Instance) : Window * Instance :=
  foldl (fun acc a => step a acc) wi tr.

(** The listeners of the window whose callback is the instance's. *)
Definition registered_by (i : Instance) (w : Window) : list EventListener :=
  filter (fun l => callback l = handler i) (listeners w).

(** The listeners of the window that belong to other code. *)
Definition foreign_to (i : Instance) (w : Window) : list EventListener :=
  filter (fun l => callback l ≠ handler i) (listeners w).

(** Other code cannot name the closure: [handleScroll] is local to the
    effect and is passed only to the two listener calls. *)
Definition foreign_action (h : nat) (a : action) : Prop :=
  match a with
  | Scroll _ => True
  | Add l | Remove l => callback l ≠ h
  end.

(** The component's listener is the only one with its callback. *)
Definition only_listener (h : nat) (w : Window) : Prop :=
  filter (fun l => callback l = h) (listeners w) = [scroll_listener h].

(** A window that already has two listeners of other code. *)
Definition example_window : Window :=
  {| metrics := {| windowHeight := 800; documentHeight := 2000; scrollTop := 0 |};
     listeners := [ {| type := "scroll"; callback := 1; capture := false |};
                    {| type := "resize"; callback := 2; capture := false |} ] |}.

(** The page scrolls to the middle, other code adds a click listener and
    removes its scroll listener, the page scrolls to the bottom. *)
Definition example_trace : list action :=
  [ Scroll {| windowHeight := 800; documentHeight := 2000; scrollTop := 600 |};
    Add {| type := "click"; callback := 3; capture := false |};
    Remove {| type := "scroll"; callback := 1; capture := false |};
    Scroll {| windowHeight := 800; documentHeight := 2000; scrollTop := 1200 |} ].

End ScrollProgress.

(** ** ShinyText *)

Module ShinyText.

(** [ShinyTextProps]; an optional prop that is omitted (or [undefined]) is
    [None]. *)
Record ShinyTextProps : Type := {
  text : string;
  disabled : option bool;
  speed : option number;
  className : option string
}.

(** The rendered [div]: its [className], the [animationDuration] of its
    style and its text child. *)
Record Rendered : Type := {
  div_className : string;
  div_animationDuration : string;
  div_children : string
}.

(** The class string of line 306,
    [`shiny-text ${disabled ? 'disabled' : ''} ${className}`], after the
    defaults of line 302. *)
Definition class_string (p : ShinyTextProps) : string :=
  let disabled := default false (disabled p) in
  let className := default "" (className p) in
  "shiny-text " +:+ (if disabled then "disabled" else "") +:+ " " +:+ className.

Section Render.

(** [Number::toString] of the language, applied by the template literal
    of line 303. *)
Variable Number_toString : number -> string.

(** Line 303, after the default [speed = 5]. *)
Definition animationDuration (p : ShinyTextProps) : string :=
  let speed := default (Finite 5) (speed p) in
  Number_toString speed +:+ "s".

Definition ShinyText (p : ShinyTextProps) : Rendered :=
  {| div_className := class_string p;
     div_animationDuration := animationDuration p;
     div_children := text p |}.

End Render.

(** The space character that the template literal of line 306 writes between
  its parts. *)
Definition space : Ascii.ascii :=
  Ascii.Ascii false false false false false true false false.

(** ASCII whitespace, which separates the tokens of a [class] attribute:
    tab, line feed, form feed, carriage return and space. *)
Definition is_ascii_whitespace (c : Ascii.ascii) : bool :=
  let n := Ascii.nat_of_ascii c in
  (n =? 9)%nat || (n =? 10)%nat || (n =? 12)%nat || (n =? 13)%nat || (n =? 32)%nat.

(** Split on ASCII whitespace; [cur] is the token being read. *)
Fixpoint split_tokens (cur : string) (s : string) : list string :=
  match s with
  | EmptyString => match cur with EmptyString => [] | _ => [cur] end
  | String c s' =>
      if is_ascii_whitespace c
      then match cur with
           | EmptyString => split_tokens "" s'
           | _ => cur :: split_tokens "" s'
           end
      else split_tokens (cur +:+ String c "") s'
  end.

(** The class list of an element whose [class] attribute is [s]. *)
Definition class_tokens (s : string) : list string := split_tokens "" s.

(** [Number::toString] on the integral values of magnitude below [10^21],
    where it is the decimal numeral, and on the three values that are not
    finite.  Fractions are outside its use here and print as their integer
    part. *)
Definition Number_toString_integral (x : number) : string :=
  match x with
  | NaN => "NaN"
  | PosInfinity => "Infinity"
  | NegInfinity => "-Infinity"
  | Finite q => pretty (Qnum q / Zpos (Qden q))%Z
  end.

End ShinyText.

(** ** The props declared by the components *)

Module Props.

(** The types that occur in the prop declarations. *)
Inductive TsType : Type :=
| TString
| TNumber
| TBoolean
| TReactNode.

#[global] Instance TsType_eq_dec : EqDecision TsType.
Proof. solve_decision. Defined.

Record PropDecl : Type := {
  component : string;
  prop : string;
  ty : TsType;
  optional : bool
}.

Definition decl (c p : string) (t : TsType) (o : bool) : PropDecl :=
  {| component := c; prop := p; ty := t; optional := o |}.

(** The prop declarations of the sources: [FeatureItem] (the props of
    [Feature]), [ShinyTextProps], and the inline props type of [Root].
    [ScrollProgress], [CatButton], [FooterRive], [HomepageHeader],
    [HomepageFeatures] and [Home] take no props. *)
Definition declared_props : list PropDecl :=
  [ decl "Feature" "title" TString false;
    decl "Feature" "emoji" TString false;
    decl "Feature" "description" TReactNode false;
    decl "Feature" "gradient" TString false;
    decl "ShinyText" "text" TString false;
    decl "ShinyText" "disabled" TBoolean true;
    decl "ShinyText" "speed" TNumber true;
    decl "ShinyText" "className" TString true;
    decl "Root" "children" TReactNode false ].

Definition is_primitive (t : TsType) : bool :=
  match t with
  | TString | TNumber | TBoolean => true
  | TReactNode => false
  end.

End Props.

(** ** The sidebars configuration *)

Module Sidebars.

(** A sidebar item of the configuration: a document id (a bare string) or
    a category object.  [collapsible] is [None] where the object does not
    set the field. *)
#[warnings="-register-all"]
Inductive SidebarItem : Type :=
| Doc (id : string)
| Category (label : string) (collapsible : option bool) (items : list SidebarItem).

(** The entries of the [sidebars] object literal, in source order. *)
Definition sidebars_entries : list (string * list SidebarItem) :=
  [ ("gettingStartedSidebar",
     [ Category "🚀 Getting Started" (Some false)
         [ Doc "getting-started/installation";
           Doc "getting-started/quick-start";
           Doc "getting-started/requirements" ] ]);
    ("coreConceptsSidebar",
     [ Category "💡 Core Concepts" (Some false)
         [ Doc "core-concepts/overview";
           Doc "core-concepts/architecture";
           Doc "core-concepts/design-philosophy";
           Doc "core-concepts/faq" ] ]);
    ("apiSidebar",
     [ Category "📘 API Reference" (Some false)
         [ Doc "api/reference";
           Doc "api/hooks";
           Doc "api/classes";
           Doc "api/utils";
           Doc "api/config" ] ]);
    ("guidesSidebar",
     [ Category "📚 Guides" (Some false)
         [ Doc "guides/using-with-react";
           Doc "guides/integration-examples";
           Doc "guides/troubleshooting";
           Doc "guides/performance-tips" ] ]);
    ("packagesSidebar",
     [ Category "📦 Packages" (Some false)
         [ Doc "packages/overview/index";
           Category "🎯 @xhub-chat/core" (Some true)
             [ Doc "packages/core/index";
               Doc "packages/core/api";
               Category "Guides" None
                 [ Doc "packages/core/guides/storage";
                   Doc "packages/core/guides/events";
                   Doc "packages/core/guides/sync" ] ];
           Category "⚛️ @xhub-chat/react" (Some true)
             [ Doc "packages/react/index";
               Doc "packages/react/hooks";
               Doc "packages/react/provider";
               Category "Guides" None
                 [ Doc "packages/react/guides/provider";
                   Doc "packages/react/guides/state-management";
                   Doc "packages/react/guides/nextjs" ] ] ] ]);
    ("featuresSidebar",
     [ Category "🎯 Features" (Some false)
         [ Doc "features/index";
           Category "📬 Messaging" (Some true)
             [ Doc "features/messaging/room-list";
               Doc "features/messaging/send-receive";
               Doc "features/messaging/unread-count" ];
           Category "📝 Posts" (Some true)
             [ Doc "features/posts/view-posts";
               Doc "features/posts/like-unlike";
               Doc "features/posts/comments";
               Doc "features/posts/reply-like-comments" ] ] ]);
    ("platformsSidebar",
     [ Category "📦 Platforms" (Some false)
         [ Doc "platforms/core";
           Doc "platforms/react" ] ]);
    ("advancedSidebar",
     [ Category "🔧 Advanced" (Some false)
         [ Doc "advanced/plugin-system";
           Doc "advanced/architecture-deep-dive";
           Doc "advanced/lifecycle" ] ]);
    ("examplesSidebar",
     [ Category "💻 Examples" (Some false)
         [ Doc "examples/minimal-example";
           Doc "examples/custom-provider";
           Doc "examples/full-app" ] ]) ].

(** The [sidebars] object: its property names mapped to their values. *)
Definition sidebars : gmap string (list SidebarItem) :=
  list_to_map sidebars_entries.

(** The [collapsible] field of an item, when it is a category that sets
    it. *)
Definition collapsible_of (it : SidebarItem) : option bool :=
  match it with
  | Doc _ => None
  | Category _ c _ => c
  end.

(** The categories of a subtree, the root included when it is one. *)
Fixpoint categories_in (it : SidebarItem) : list SidebarItem :=
  match it with
  | Doc _ => []
  | Category _ _ its => it :: concat (map categories_in its)
  end.

(** The subcategories nested, at any depth, under a top-level item. *)
Definition nested_subcategories (it : SidebarItem) : list SidebarItem :=
  match it with
  | Doc _ => []
  | Category _ _ its => concat (map categories_in its)
  end.

End Sidebars.

(** ** ScrollProgress: the rendered bar and remounting *)

Module ScrollProgressView.

Import ScrollProgress.

Section Render.

(** [Number::toString] of the language, applied by the template literal of
    line 47. *)
Variable Number_toString : number -> string.

(** The [width] of the bar's style, line 47: [`${scrollProgress}%`]. *)
Definition width (st : State) : string :=
  Number_toString (scrollProgress st) +:+ "%".

End Render.

(** A mount followed by its cleanup, as a development double-mount or a
    navigation away does; [h] is the closure of that mount. *)
Definition mount_unmount (w : Window) (h : nat) : Window :=
  let (w', i) := mount h w in unmount w' i.

(** Mounts and unmounts in sequence, one closure per mount. *)
Definition mount_unmount_all (hs : list nat) (w : Window) : Window :=
  foldl mount_unmount w hs.

End ScrollProgressView.

(** ** CatButton *)

Module CatButton.

(** The route of line 31. *)
Definition quick_start : string := "/docs/getting-started/quick-start".

(** A pending timer of [setTimeout]: the time at which it is due, in
    milliseconds, and what its callback does, which here is always a
    [history.push] of a path. *)
Record Timer : Type := {
  due : nat;
  path : string
}.

(** The browser as the button sees it: the clock, the pending timers in the
    order they were set, and the paths pushed on the history so far. *)
Record Browser : Type := {
  clock : nat;
  timers : list Timer;
  pushed : list string
}.

(** [setTimeout(() => history.push(p), delay)]. *)
Definition setTimeout (p : string) (delay : nat) (b : Browser) : Browser :=
  {| clock := clock b;
     timers := timers b ++ [ {| due := clock b + delay; path := p |} ];
     pushed := pushed b |}.

(** [onStateChange], lines 28-34: [e.data] is the list of state names of
    the event; [includes] compares whole strings. *)
Definition onStateChange (data : list string) (b : Browser) : Browser :=
  if bool_decide ("appeared click ex" ∈ data)
  then setTimeout quick_start 100 b
  else b.

(** [dt] milliseconds pass and the event loop runs the timers that are due:
    their paths are pushed, the others stay pending. *)
Definition elapse (dt : nat) (b : Browser) : Browser :=
  let t := clock b + dt in
  {| clock := t;
     timers := filter (fun tm => t < due tm) (timers b);
     pushed := pushed b ++ (path <$> filter (fun tm => ¬ t < due tm) (timers b)) |}.

Inductive event : Type :=
| StateChange (data : list string)
| Elapse (dt : nat).

Definition step (b : Browser) (e : event) : Browser :=
  match e with
  | StateChange data => onStateChange data b
  | Elapse dt => elapse dt b
  end.

Definition run (evs : list event) (b : Browser) : Browser := foldl step b evs.

(** Whether an event is a state change that names the click state. *)
Definition is_click (e : event) : bool :=
  match e with
  | StateChange data => bool_decide ("appeared click ex" ∈ data)
  | Elapse _ => false
  end.

(** The number of such state changes in a trace. *)
Definition clicks (evs : list event) : nat :=
  foldr (fun e acc => if is_click e then S acc else acc) 0 evs.

(** The time that passes in a trace. *)
Definition elapsed (evs : list event) : nat :=
  foldr (fun e acc => match e with
                      | StateChange _ => acc
                      | Elapse dt => dt + acc
                      end) 0 evs.

(** Every pending timer pushes the quick-start route and is due within 100
    milliseconds. *)
Definition timers_ok (b : Browser) : Prop :=
  Forall (fun tm => path tm = quick_start /\ due tm <= clock b + 100) (timers b).

End CatButton.

(** ** HomepageFeatures *)

Module HomepageFeatures.

Section Features.

(** The type of [description], [ReactNode]. *)
Variable ReactNode : Type.

Record FeatureItem : Type := {
  title : string;
  emoji : string;
  description : ReactNode;
  gradient : string
}.

(** What [Feature] puts into a card from its props: the [background] and
    the child of the emoji circle, the [background] and the child of the
    heading, and the child of the paragraph. *)
Record FeatureCard : Type := {
  circle_background : string;
  circle_child : string;
  heading_background : string;
  heading_child : string;
  paragraph_child : ReactNode
}.

(** [Feature], lines 109-167. *)
Definition Feature (props : FeatureItem) : FeatureCard :=
  {| circle_background := gradient props;
     circle_child := emoji props;
     heading_background := gradient props;
     heading_child := title props;
     paragraph_child := description props |}.

(** The row of line 198: [FeatureList.map((props, idx) => <Feature key={idx}
    {...props} />)], each card with its React key. *)
Definition feature_row (FeatureList : list FeatureItem) : list (nat * FeatureCard) :=
  imap (fun idx props => (idx, Feature props)) FeatureList.

End Features.

(** The two links of the quick-start section, lines 246 and 258. *)
Definition quick_start_links : list string :=
  [ "/docs/getting-started/installation"; "/docs/examples/minimal-example" ].

End HomepageFeatures.

(** ** Navigation: the navbar, the footer and the documents of the sidebars *)

Module Navigation.

Import Sidebars.

(** The document ids of a subtree, in order. *)
Fixpoint doc_ids (it : SidebarItem) : list string :=
  match it with
  | Doc id => [id]
  | Category _ _ its => concat (map doc_ids its)
  end.

(** The document ids of all sidebars, in source order. *)
Definition all_doc_ids : list string :=
  concat (map (fun e => concat (map doc_ids e.2)) sidebars_entries).

(** All categories of all sidebars, at any depth. *)
Definition all_categories : list SidebarItem :=
  concat (map (fun e => concat (map categories_in e.2)) sidebars_entries).

Definition items_of (it : SidebarItem) : list SidebarItem :=
  match it with
  | Doc _ => []
  | Category _ _ its => its
  end.

(** An item of [themeConfig.navbar.items]. *)
Inductive NavbarItem : Type :=
| DocSidebar (sidebarId position label : string)
| Link (href label position : string).

(** [themeConfig.navbar.items] of the site configuration; the commented-out
    item is not part of it. *)
Definition navbar_items : list NavbarItem :=
  [ DocSidebar "gettingStartedSidebar" "left" "Getting Started";
    DocSidebar "featuresSidebar" "left" "Features";
    DocSidebar "apiSidebar" "left" "API Reference";
    DocSidebar "guidesSidebar" "left" "Guides";
    DocSidebar "examplesSidebar" "left" "Examples";
    Link "https://github.com/XHub-Platform/xhub-chat" "GitHub" "right" ].

(** A footer link: internal ([to]) or external ([href]). *)
Inductive FooterLink : Type :=
| To (label to : string)
| Href (label href : string).

(** [themeConfig.footer.links]: the columns by title. *)
Definition footer_links : list (string * list FooterLink) :=
  [ ("Documentation",
     [ To "Getting Started" "/docs/getting-started/installation";
       To "Core Concepts" "/docs/core-concepts/overview";
       To "API Reference" "/docs/api/reference" ]);
    ("Packages",
     [ To "Overview" "/docs/packages/overview/";
       To "@xhub-chat/core" "/docs/packages/core/";
       To "@xhub-chat/react" "/docs/packages/react/" ]);
    ("Platforms",
     [ To "Core Package" "/docs/platforms/core";
       To "React Package" "/docs/platforms/react" ]);
    ("More",
     [ Href "NPM" "https://www.npmjs.com/package/@xhub-chat/react" ]) ].

Definition to_of (l : FooterLink) : option string :=
  match l with
  | To _ t => Some t
  | Href _ _ => None
  end.

(** The internal link targets written in the code: the [to] links of the
    footer, the two links of the home page's quick-start section and the
    route pushed by the cat button. *)
Definition internal_links : list string :=
  concat (map (fun col => omap to_of col.2) footer_links)
  ++ HomepageFeatures.quick_start_links
  ++ [CatButton.quick_start].

(** A link path names a listed document: it is [/docs/] followed by the
    document id, or by the directory of an [index] document with a trailing
    slash. *)
Definition names_document (link id : string) : Prop :=
  link = "/docs/" +:+ id \/ link +:+ "index" = "/docs/" +:+ id.

End Navigation.

(** ** Class strings without tokens *)

Module Whitespace.

(** A string of ASCII whitespace only, the empty string included. *)
Fixpoint whitespace_only (s : string) : bool :=
  match s with
  | EmptyString => true
  | String c s' => ShinyText.is_ascii_whitespace c && whitespace_only s'
  end.

End Whitespace.

(** * Properties *)

(** ** Numbers *)

Section NumberFacts.

Local Open Scope Q_scope.

Lemma Qle_bool_false (a b : Q) : Qle_bool a b = false -> b < a.
Proof.
  intros E. apply Qnot_le_lt. intros H.
  apply Qle_bool_iff in H. congruence.
Qed.

Lemma Qeq_bool_false (a b : Q) : Qeq_bool a b = false -> ~ a == b.
Proof. intros E H. apply Qeq_bool_iff in H. congruence. Qed.

Lemma Qeq_bool_false_intro (a b : Q) : ~ a == b -> Qeq_bool a b = false.
Proof.
  intros H. destruct (Qeq_bool a b) eqn:E; [|reflexivity].
  apply Qeq_bool_iff in E. contradiction.
Qed.

#[local] Instance number_eq_equiv : Equivalence number_eq.
Proof.
  split.
  - intros []; simpl; auto. reflexivity.
  - intros [] []; simpl; auto. intros H. symmetry. exact H.
  - intros [] [] []; simpl; auto; try contradiction.
    intros H1 H2. rewrite H1. exact H2.
Qed.

(** The upper clamp: never above 100 unless NaN. *)
Lemma Math_min_le_r (p : number) (b : Q) :
  is_NaN p = false -> le (Math_min p (Finite b)) (Finite b).
Proof.
  destruct p as [| |a|]; simpl; try discriminate; auto.
  - intros _. destruct (Qle_bool a b) eqn:E; simpl.
    + apply Qle_bool_iff. exact E.
    + apply Qle_refl.
  - intros _. apply Qle_refl.
Qed.

(** On a percentage that is not negative the upper clamp and the two-sided
    clamp agree, and land in the interval. *)
Lemma Math_min_clamp_nonneg (p : number) (b : Q) :
  0 <= b -> le (Finite 0) p ->
  Math_min p (Finite b) =n= Math_min (Math_max p (Finite 0)) (Finite b)
  /\ in_interval 0 b (Math_min p (Finite b)).
Proof.
  intros Hb. destruct p as [| |a|]; simpl; try contradiction.
  - intros Ha. unfold in_interval.
    destruct (Qle_bool a 0) eqn:E0.
    + apply Qle_bool_iff in E0. assert (Ha0 : a == 0) by lra.
      simpl. destruct (Qle_bool a b) eqn:E1, (Qle_bool 0 b) eqn:E2; simpl;
        try apply Qle_bool_iff in E1; try apply Qle_bool_iff in E2;
        try apply Qle_bool_false in E1; try apply Qle_bool_false in E2;
        repeat split; lra.
    + simpl. destruct (Qle_bool a b) eqn:E1; simpl;
        try apply Qle_bool_iff in E1; try apply Qle_bool_false in E1;
        repeat split; lra.
  - intros _. unfold in_interval. simpl. repeat split; lra.
Qed.

(** There is no lower clamp: a negative percentage stays negative. *)
Lemma Math_min_neg (p : number) (b : Q) :
  0 <= b -> lt p (Finite 0) -> lt (Math_min p (Finite b)) (Finite 0).
Proof.
  intros Hb. destruct p as [| |a|]; simpl; try contradiction; auto.
  intros Ha. destruct (Qle_bool a b) eqn:E; simpl.
  - exact Ha.
  - apply Qle_bool_false in E. lra.
Qed.

End NumberFacts.

(** ** ScrollProgress: the stored percentage *)

Section ScrollProgressFacts.

Import ScrollProgress.
Local Open Scope Q_scope.

(** With distinct heights the percentage is the rational quotient. *)
Lemma scrollPercentage_finite (s : ScrollState) :
  ~ documentHeight s == windowHeight s ->
  scrollPercentage s
  = Finite (scrollTop s / (documentHeight s + - windowHeight s) * 100).
Proof.
  intros H. unfold scrollPercentage, sub. simpl.
  rewrite Qeq_bool_false_intro; [reflexivity|].
  intros E. apply H. lra.
Qed.

(** The percentage is NaN exactly at zero over zero. *)
Lemma scrollPercentage_NaN_iff (s : ScrollState) :
  is_NaN (scrollPercentage s) = true
  <-> documentHeight s == windowHeight s /\ scrollTop s == 0.
Proof.
  unfold scrollPercentage, sub. simpl.
  destruct (Qeq_bool (documentHeight s + - windowHeight s) 0) eqn:E.
  - apply Qeq_bool_iff in E. unfold signed_inf, Qsign.
    destruct (Qcompare_spec (scrollTop s) 0) as [H|H|H]; simpl; split;
      try discriminate; try (intros [_ H']; lra).
    intros _. split; [lra | exact H].
  - apply Qeq_bool_false in E. simpl. split; [discriminate|].
    intros [H _]. exfalso. apply E. lra.
Qed.

(** At a scroll position that is not negative, on a document taller than
    the window, the percentage is not negative. *)
Lemma scrollPercentage_nonneg (s : ScrollState) :
  0 <= scrollTop s -> windowHeight s < documentHeight s ->
  le (Finite 0) (scrollPercentage s).
Proof.
  intros Ht Hh. rewrite scrollPercentage_finite by lra. simpl.
  assert (Hd : 0 < documentHeight s + - windowHeight s) by lra.
  apply Qmult_le_0_compat; [|lra].
  unfold Qdiv. apply Qmult_le_0_compat; [exact Ht|].
  apply Qlt_le_weak, Qinv_lt_0_compat, Hd.
Qed.

(** C1, as the code has it.  Whenever the percentage
    [scrollTop / (documentHeight - windowHeight) * 100] is a number (not the
    NaN of zero over zero), the value stored by [handleScroll] is that
    percentage bounded from above by 100 and nothing else: it is never above
    100; it equals the percentage clamped to [[0, 100]], and lies in that
    interval, whenever the percentage is not negative, which is the case for
    [scrollTop >= 0] on a document taller than the window; and a negative
    percentage is stored as it is, below 0. *)
Theorem handleScroll_upper_clamp (s : ScrollState) (st : State) :
  is_NaN (scrollPercentage s) = false ->
  let v := scrollProgress (handleScroll s st) in
  v = Math_min (scrollPercentage s) (Finite 100)
  /\ le v (Finite 100)
  /\ (le (Finite 0) (scrollPercentage s) ->
      v =n= clamped_progress s /\ in_interval 0 100 v)
  /\ (0 <= scrollTop s -> windowHeight s < documentHeight s ->
      v =n= clamped_progress s /\ in_interval 0 100 v)
  /\ (lt (scrollPercentage s) (Finite 0) -> lt v (Finite 0)).
Proof.
  intros Hnan v. subst v. unfold handleScroll, clamped_progress. simpl.
  split; [reflexivity|]. split; [apply Math_min_le_r, Hnan|].
  split; [apply Math_min_clamp_nonneg; lra|].
  split.
  - intros Ht Hh. apply Math_min_clamp_nonneg; [lra|].
    apply scrollPercentage_nonneg; assumption.
  - apply Math_min_neg. lra.
Qed.

(** At the page 2000 high in a window 800 high, scrolled by 600: the stored
    value is 50. *)
Lemma handleScroll_upper_clamp_witness :
  let s := {| windowHeight := 800; documentHeight := 2000; scrollTop := 600 |} in
  is_NaN (scrollPercentage s) = false
  /\ scrollProgress (handleScroll s initial) =n= Finite 50
  /\ in_interval 0 100 (scrollProgress (handleScroll s initial)).
Proof.
  intros s.
  assert (Hn : is_NaN (scrollPercentage s) = false) by reflexivity.
  destruct (handleScroll_upper_clamp s initial Hn) as (_ & _ & H & _).
  split; [exact Hn|]. split; [reflexivity|].
  apply H. vm_compute. discriminate.
Defined.

(** C1, as the specification states it, fails where the scroll position is
    negative (elastic overscroll above the top of the page reports a
    negative [window.scrollY]): the page 2000 high in a window 800 high at
    [scrollY = -60] stores -5, which is below 0 and is not the clamped
    value 0. *)
Lemma handleScroll_not_clamped_below :
  let s := {| windowHeight := 800; documentHeight := 2000; scrollTop := -60 |} in
  scrollProgress (handleScroll s initial) =n= Finite (-5)
  /\ clamped_progress s =n= Finite 0
  /\ ~ scrollProgress (handleScroll s initial) =n= clamped_progress s
  /\ ~ in_interval 0 100 (scrollProgress (handleScroll s initial)).
Proof.
  intros s. split; [reflexivity|]. split; [reflexivity|]. split.
  - vm_compute. discriminate.
  - intros [H _]. vm_compute in H. apply H. reflexivity.
Qed.

(** C2.  On a document taller than the window, at the bottom of the
    document ([scrollTop = documentHeight - windowHeight]) the stored value
    is exactly 100. *)
Theorem handleScroll_bottom (s : ScrollState) (st : State) :
  windowHeight s < documentHeight s ->
  scrollTop s == documentHeight s - windowHeight s ->
  scrollProgress (handleScroll s st) =n= Finite 100.
Proof.
  intros Hh Ht. unfold handleScroll. simpl.
  rewrite scrollPercentage_finite by lra. simpl.
  set (p := scrollTop s / (documentHeight s + - windowHeight s) * 100).
  assert (Hp : p == 100).
  { unfold p. rewrite Ht. field. lra. }
  destruct (Qle_bool p 100); simpl; [exact Hp | reflexivity].
Qed.

Lemma handleScroll_bottom_witness :
  let s := {| windowHeight := 800; documentHeight := 2000; scrollTop := 1200 |} in
  windowHeight s < documentHeight s
  /\ scrollTop s == documentHeight s - windowHeight s
  /\ scrollProgress (handleScroll s initial) =n= Finite 100.
Proof.
  intros s.
  assert (Hh : windowHeight s < documentHeight s) by reflexivity.
  assert (Ht : scrollTop s == documentHeight s - windowHeight s) by reflexivity.
  split; [exact Hh|]. split; [exact Ht|].
  exact (handleScroll_bottom s initial Hh Ht).
Defined.

(** C3.  The division is unguarded: when the document is exactly as high
    as the window and the scroll position is 0, the percentage is zero over
    zero, and the value passed to [setScrollProgress] is NaN, which is not
    a number of [[0, 100]]. *)
Theorem handleScroll_zero_over_zero (s : ScrollState) (st : State) :
  documentHeight s == windowHeight s ->
  scrollTop s == 0 ->
  div (Finite (scrollTop s))
      (sub (Finite (documentHeight s)) (Finite (windowHeight s))) = NaN
  /\ scrollProgress (handleScroll s st) = NaN
  /\ ~ in_interval 0 100 (scrollProgress (handleScroll s st)).
Proof.
  intros Hh Ht.
  assert (Hd : div (Finite (scrollTop s))
                 (sub (Finite (documentHeight s)) (Finite (windowHeight s))) = NaN).
  { unfold sub. simpl.
    assert (E : Qeq_bool (documentHeight s + - windowHeight s) 0 = true)
      by (apply Qeq_bool_iff; lra).
    rewrite E. unfold signed_inf, Qsign.
    destruct (Qcompare_spec (scrollTop s) 0); [reflexivity | lra | lra]. }
  assert (Hv : scrollProgress (handleScroll s st) = NaN).
  { unfold handleScroll, scrollPercentage, setScrollProgress.
    cbn [scrollProgress]. rewrite Hd. reflexivity. }
  split; [exact Hd|]. split; [exact Hv|].
  rewrite Hv. intros [H _]. exact H.
Qed.

(** A page exactly as high as the window, 800, at the top. *)
Lemma handleScroll_zero_over_zero_witness :
  let s := {| windowHeight := 800; documentHeight := 800; scrollTop := 0 |} in
  documentHeight s == windowHeight s
  /\ scrollTop s == 0
  /\ scrollProgress (handleScroll s initial) = NaN.
Proof.
  intros s.
  assert (Hh : documentHeight s == windowHeight s) by reflexivity.
  assert (Ht : scrollTop s == 0) by reflexivity.
  split; [exact Hh|]. split; [exact Ht|].
  exact (proj1 (proj2 (handleScroll_zero_over_zero s initial Hh Ht))).
Defined.

End ScrollProgressFacts.

(** The same inputs on binary64 values: the bottom of the page, the middle,
    an overscroll above the top, and zero over zero. *)
Example Binary64_bottom :
  Binary64.handleScroll 800 2000 1200 = 100%float.
Proof. vm_compute. reflexivity. Qed.

Example Binary64_middle :
  Binary64.handleScroll 800 2000 600 = 50%float.
Proof. vm_compute. reflexivity. Qed.

Example Binary64_overscroll :
  Binary64.handleScroll 800 2000 (-60) = (-5)%float.
Proof. vm_compute. reflexivity. Qed.

Example Binary64_zero_over_zero :
  PrimFloat.is_nan (Binary64.handleScroll 800 800 0) = true.
Proof. vm_compute. reflexivity. Qed.

(** ** ScrollProgress: the window listener *)

Section ListenerFacts.

Import ScrollProgress.

Implicit Types (l x : EventListener) (ls : list EventListener) (h : nat).

Lemma remove_listener_filter_other (P : EventListener -> Prop)
    `{!forall y, Decision (P y)} x ls :
  ~ P x -> filter P (remove_listener x ls) = filter P ls.
Proof.
  intros Hx. induction ls as [|y r IH]; simpl; [reflexivity|].
  destruct (decide (y = x)) as [->|Hne].
  - rewrite filter_cons_False by exact Hx. reflexivity.
  - rewrite !filter_cons. rewrite IH. reflexivity.
Qed.

Lemma remove_listener_filter_only (P : EventListener -> Prop)
    `{!forall y, Decision (P y)} x ls :
  filter P ls = [x] -> filter P (remove_listener x ls) = [].
Proof.
  induction ls as [|y r IH]; simpl; [intros [=]|].
  intros Hf. destruct (decide (y = x)) as [->|Hne].
  - rewrite filter_cons in Hf. destruct (decide (P x)) as [_|Hn].
    + congruence.
    + assert (Hin : x ∈ filter P r) by (rewrite Hf; left).
      apply list_elem_of_filter in Hin. tauto.
  - rewrite filter_cons in Hf |- *. destruct (decide (P y)).
    + congruence.
    + apply IH, Hf.
Qed.

Lemma remove_listener_last x ls :
  x ∉ ls -> remove_listener x (ls ++ [x]) = ls.
Proof.
  induction ls as [|y r IH]; simpl; intros Hx.
  - rewrite decide_True; reflexivity.
  - apply not_elem_of_cons in Hx as [Hne Hr].
    rewrite decide_False by congruence. rewrite IH by exact Hr. reflexivity.
Qed.

Lemma mount_listeners h w :
  (forall l, l ∈ listeners w -> callback l ≠ h) ->
  listeners (mount h w).1 = listeners w ++ [scroll_listener h].
Proof.
  intros Hfresh. simpl. rewrite decide_False; [reflexivity|].
  intros Hin. apply (Hfresh _ Hin). reflexivity.
Qed.

Lemma mount_only_listener h w :
  (forall l, l ∈ listeners w -> callback l ≠ h) ->
  only_listener h (mount h w).1.
Proof.
  intros Hfresh. unfold only_listener. rewrite mount_listeners by exact Hfresh.
  rewrite filter_app.
  assert (E : filter (fun l => callback l = h) (listeners w) = []).
  { induction (listeners w) as [|y r IH]; [reflexivity|].
    rewrite filter_cons_False.
    - apply IH. intros l Hl. apply Hfresh. right. exact Hl.
    - apply Hfresh. left. }
  rewrite E. simpl. rewrite filter_cons_True by reflexivity. reflexivity.
Qed.

Lemma step_handler a w i : handler (step a (w, i)).2 = handler i.
Proof.
  destruct a; simpl; try reflexivity.
  unfold dispatch_scroll. case_decide; reflexivity.
Qed.

Lemma step_only_listener a w i h :
  foreign_action h a -> only_listener h w -> only_listener h (step a (w, i)).1.
Proof.
  unfold only_listener. destruct a as [m|l|l]; simpl; intros Ha Hw.
  - exact Hw.
  - case_decide; [exact Hw|]. rewrite filter_app, Hw.
    rewrite filter_cons_False by exact Ha. reflexivity.
  - rewrite remove_listener_filter_other by exact Ha. exact Hw.
Qed.

Lemma run_invariant tr w i h :
  Forall (foreign_action h) tr ->
  handler i = h -> only_listener h w ->
  handler (run tr (w, i)).2 = h /\ only_listener h (run tr (w, i)).1.
Proof.
  unfold run. revert w i.
  induction tr as [|a tr IH]; intros w i Htr Hh Hw; cbn [foldl].
  - split; assumption.
  - apply Forall_cons in Htr as [Ha Htr'].
    pose proof (step_handler a w i) as Hs.
    pose proof (step_only_listener a w i h Ha Hw) as Hs'.
    destruct (step a (w, i)) as [w' i']. simpl in Hs, Hs'.
    apply IH; [exact Htr' | congruence | exact Hs'].
Qed.

(** C4.  The mount effect registers exactly one listener, a ['scroll']
    listener of the window, and the cleanup removes exactly that one.  From
    any window where the new closure is not yet registered, and whatever
    scroll events and listener changes of other code happen while the
    component is mounted: after mount the window has one more listener, the
    component's; it stays the only listener of the component; after the
    cleanup the component has no listener, the listeners of other code are
    the same, a scroll event no longer reaches the component, and an unmount
    right after the mount gives back the original listeners. *)
Theorem ScrollProgress_single_listener (w : Window) h (tr : list action) :
  (forall l, l ∈ listeners w -> callback l ≠ h) ->
  Forall (foreign_action h) tr ->
  let mounted := mount h w in
  let later := run tr mounted in
  let after := unmount later.1 later.2 in
  listeners mounted.1 = listeners w ++ [scroll_listener h]
  /\ registered_by mounted.2 mounted.1 = [scroll_listener h]
  /\ registered_by later.2 later.1 = [scroll_listener h]
  /\ registered_by later.2 after = []
  /\ foreign_to later.2 after = foreign_to later.2 later.1
  /\ dispatch_scroll after later.2 = later.2
  /\ listeners (unmount mounted.1 mounted.2) = listeners w.
Proof.
  intros Hfresh Htr mounted later after.
  pose proof (mount_listeners h w Hfresh) as Hm.
  pose proof (mount_only_listener h w Hfresh) as Ho.
  destruct (run_invariant tr (mount h w).1 (mount h w).2 h Htr eq_refl Ho)
    as [Hh Hl].
  change (run tr ((mount h w).1, (mount h w).2)) with later in Hh, Hl.
  assert (Hgone : registered_by later.2 after = []).
  { unfold registered_by, after, unmount. simpl. rewrite Hh.
    apply remove_listener_filter_only. exact Hl. }
  split; [exact Hm|]. split; [exact Ho|].
  split; [unfold registered_by; rewrite Hh; exact Hl|].
  split; [exact Hgone|]. split; [|split].
  - unfold foreign_to, after, unmount. simpl. rewrite Hh.
    apply remove_listener_filter_other. intros Hn. apply Hn. reflexivity.
  - unfold dispatch_scroll. rewrite decide_False; [reflexivity|].
    apply (filter_nil_not_elem_of _ _ _ Hgone). rewrite Hh. reflexivity.
  - unfold unmount. simpl. rewrite decide_False.
    + apply remove_listener_last. intros Hin. apply (Hfresh _ Hin). reflexivity.
    + intros Hin. apply (Hfresh _ Hin). reflexivity.
Qed.

End ListenerFacts.

Section ListenerExample.

Import ScrollProgress.

Example example_run_state :
  scrollProgress (state (run example_trace (mount 7 example_window)).2)
  =n= Finite 100.
Proof. vm_compute. reflexivity. Qed.

Example example_run_unmounted :
  let later := run example_trace (mount 7 example_window) in
  listeners (unmount later.1 later.2)
  = [ {| type := "resize"; callback := 2; capture := false |};
      {| type := "click"; callback := 3; capture := false |} ].
Proof. vm_compute. reflexivity. Qed.

Lemma ScrollProgress_single_listener_witness :
  let later := run example_trace (mount 7 example_window) in
  (forall l, l ∈ listeners example_window -> callback l ≠ 7)
  /\ Forall (foreign_action 7) example_trace
  /\ registered_by later.2 later.1 = [scroll_listener 7]
  /\ registered_by later.2 (unmount later.1 later.2) = [].
Proof.
  intros later.
  assert (Hfresh : forall l, l ∈ listeners example_window -> callback l ≠ 7).
  { intros l Hl. simpl in Hl.
    apply elem_of_cons in Hl as [->|Hl]; [simpl; lia|].
    apply elem_of_cons in Hl as [->|Hl]; [simpl; lia|].
    apply elem_of_nil in Hl. destruct Hl. }
  assert (Htr : Forall (foreign_action 7) example_trace).
  { unfold example_trace. repeat constructor; simpl; lia. }
  destruct (ScrollProgress_single_listener example_window 7 example_trace
              Hfresh Htr) as (_ & _ & H1 & H2 & _).
  split; [exact Hfresh|]. split; [exact Htr|]. split; [exact H1 | exact H2].
Defined.

End ListenerExample.

(** ** ShinyText *)

Section ShinyTextFacts.

Import ShinyText.

Lemma split_tokens_space (a b cur : string) :
  split_tokens cur (a +:+ String space b)
  = split_tokens cur a ++ split_tokens "" b.
Proof.
  revert cur. induction a as [|c a IH]; intros cur; simpl.
  - destruct cur; reflexivity.
  - destruct (is_ascii_whitespace c).
    + destruct cur; simpl; rewrite IH; reflexivity.
    + apply IH.
Qed.

(** The class list of the rendered [div]: [shiny-text], then [disabled] if
    the prop is set, then the tokens of the [className] prop. *)
Lemma class_tokens_class_string (p : ShinyTextProps) :
  class_tokens (class_string p)
  = "shiny-text"
      :: (if default false (disabled p) then ["disabled"] else [])
      ++ class_tokens (default "" (className p)).
Proof.
  unfold class_string, class_tokens.
  change ("shiny-text " +:+ ?r) with ("shiny-text" +:+ String space r).
  rewrite split_tokens_space.
  change (" " +:+ ?r) with (String space r).
  rewrite split_tokens_space.
  destruct (default false (disabled p)); reflexivity.
Qed.

(** C7, as the code has it.  For every props value the rendered
    [animationDuration] is [`${speed}s`] with [speed] defaulting to 5, so
    that omitting [speed] gives ['5s']; the class list is [shiny-text],
    [disabled] when the [disabled] prop (default [false]) is true, and the
    tokens of the [className] prop; hence [disabled] is in the class list if
    and only if the [disabled] prop is true or the [className] prop itself
    contains the token [disabled]. *)
Theorem ShinyText_render (Number_toString : number -> string)
    (p : ShinyTextProps) :
  Number_toString (Finite 5) = "5" ->
  let r := ShinyText Number_toString p in
  div_animationDuration r
  = Number_toString (default (Finite 5) (speed p)) +:+ "s"
  /\ (speed p = None -> div_animationDuration r = "5s")
  /\ ("disabled" ∈ class_tokens (div_className r)
      <-> default false (disabled p) = true
          \/ "disabled" ∈ class_tokens (default "" (className p)))
  /\ (disabled p = None ->
      "disabled" ∈ class_tokens (div_className r)
      <-> "disabled" ∈ class_tokens (default "" (className p)))
  /\ div_children r = text p.
Proof.
  intros H5 r. subst r. simpl. unfold animationDuration.
  split; [reflexivity|]. split.
  { intros ->. simpl. rewrite H5. reflexivity. }
  assert (Hiff : "disabled" ∈ class_tokens (class_string p)
                 <-> default false (disabled p) = true
                     \/ "disabled" ∈ class_tokens (default "" (className p))).
  { rewrite class_tokens_class_string.
    destruct (default false (disabled p)); simpl.
    - split; [intros _; left; reflexivity|]. intros _. right. left.
    - rewrite elem_of_cons. split.
      + intros [Hd|Hin]; [discriminate Hd | right; exact Hin].
      + intros [Hd|Hin]; [discriminate Hd | right; exact Hin]. }
  split; [exact Hiff|]. split; [|reflexivity].
  intros Hd. rewrite Hiff, Hd. simpl. split; [|tauto].
  intros [Hf|Hin]; [discriminate Hf | exact Hin].
Qed.

(** The call of the home page, [<ShinyText text="AI-Powered" />]. *)
Lemma ShinyText_render_witness :
  let p := {| text := "AI-Powered"; disabled := None; speed := None;
              className := None |} in
  Number_toString_integral (Finite 5) = "5"
  /\ div_animationDuration (ShinyText Number_toString_integral p) = "5s"
  /\ ~ "disabled" ∈ class_tokens (div_className (ShinyText Number_toString_integral p)).
Proof.
  intros p.
  assert (H5 : Number_toString_integral (Finite 5) = "5") by reflexivity.
  destruct (ShinyText_render Number_toString_integral p H5)
    as (_ & Hs & Hc & _).
  split; [exact H5|]. split; [exact (Hs eq_refl)|].
  intros Hin. apply Hc in Hin as [Hd|Hin]; [discriminate Hd|].
  simpl in Hin. apply elem_of_nil in Hin. exact Hin.
Defined.

(** C7, as the specification states it, fails for a caller that passes the
    class itself: [<ShinyText text="AI-Powered" className="disabled" />] has
    [disabled] in its class list although the [disabled] prop is not true. *)
Lemma ShinyText_disabled_from_className :
  let p := {| text := "AI-Powered"; disabled := None; speed := None;
              className := Some "disabled" |} in
  let r := ShinyText Number_toString_integral p in
  div_className r = "shiny-text  disabled"
  /\ class_tokens (div_className r) = ["shiny-text"; "disabled"]
  /\ default false (disabled p) = false
  /\ ~ ("disabled" ∈ class_tokens (div_className r)
        <-> default false (disabled p) = true).
Proof.
  intros p r. split; [reflexivity|]. split; [reflexivity|].
  split; [reflexivity|]. intros [H _].
  assert (Hin : "disabled" ∈ class_tokens (div_className r)).
  { change (class_tokens (div_className r)) with ["shiny-text"; "disabled"].
    right. left. }
  specialize (H Hin). discriminate H.
Qed.

End ShinyTextFacts.

(** ** The declared props *)

Section PropsFacts.

Import Props.

(** C5, as the code has it.  Every prop declared by the components of the
    sources has type [string], [number] or [boolean], except the
    [description] of a feature card and the [children] of [Root], which are
    [ReactNode]. *)
Theorem declared_props_types (d : PropDecl) :
  d ∈ declared_props ->
  is_primitive (ty d) = true
  \/ (ty d = TReactNode
      /\ ((component d = "Feature" /\ prop d = "description")
          \/ (component d = "Root" /\ prop d = "children"))).
Proof.
  unfold declared_props. intros H.
  repeat (apply elem_of_cons in H as [->|H]; [simpl; tauto|]).
  apply elem_of_nil in H. destruct H.
Qed.

Lemma declared_props_types_witness :
  let d := decl "ShinyText" "speed" TNumber true in
  d ∈ declared_props /\ is_primitive (ty d) = true.
Proof.
  intros d.
  assert (Hd : d ∈ declared_props).
  { unfold declared_props, d. do 6 right. left. }
  split; [exact Hd|].
  destruct (declared_props_types d Hd) as [H|[H _]];
    [exact H | discriminate H].
Defined.

(** C5, as the specification states it, fails at the [description] of
    [FeatureItem], declared [ReactNode] (and filled with JSX fragments in
    [FeatureList]). *)
Lemma declared_props_not_all_primitive :
  decl "Feature" "description" TReactNode false ∈ declared_props
  /\ is_primitive (ty (decl "Feature" "description" TReactNode false)) = false
  /\ ~ (forall d, d ∈ declared_props -> is_primitive (ty d) = true).
Proof.
  assert (Hd : decl "Feature" "description" TReactNode false ∈ declared_props).
  { unfold declared_props. do 2 right. left. }
  split; [exact Hd|]. split; [reflexivity|].
  intros H. specialize (H _ Hd). discriminate H.
Qed.

End PropsFacts.

(** ** The sidebars *)

Section SidebarsFacts.

Import Sidebars.

Lemma sidebars_size : size sidebars = 9%nat.
Proof.
  unfold sidebars. rewrite map_size_list_to_map; [reflexivity|].
  apply (bool_decide_unpack _). vm_compute. reflexivity.
Qed.

(** C6.  The [sidebars] object has nine entries; each is a list of exactly
    one item, a category whose [collapsible] is [false]; and every
    subcategory nested below it that sets [collapsible] sets it to [true]. *)
Theorem sidebars_shape (k : string) (its : list SidebarItem) :
  sidebars !! k = Some its ->
  size sidebars = 9%nat
  /\ exists label items,
      its = [Category label (Some false) items]
      /\ forall c b,
          c ∈ nested_subcategories (Category label (Some false) items) ->
          collapsible_of c = Some b -> b = true.
Proof.
  intros H. split; [exact sidebars_size|].
  apply elem_of_list_to_map_2 in H. unfold sidebars_entries in H.
  repeat (apply elem_of_cons in H as [H|H];
    [ injection H as -> ->; eexists _, _; split; [reflexivity|];
      intros c b Hc Hb; simpl in Hc;
      repeat (apply elem_of_cons in Hc as [->|Hc];
              [simpl in Hb; congruence|]);
      apply elem_of_nil in Hc; destruct Hc
    | ]).
  apply elem_of_nil in H. destruct H.
Qed.

Lemma sidebars_shape_witness :
  exists its,
    sidebars !! "packagesSidebar" = Some its
    /\ length its = 1%nat
    /\ exists label items,
        its = [Category label (Some false) items]
        /\ forall c b,
            c ∈ nested_subcategories (Category label (Some false) items) ->
            collapsible_of c = Some b -> b = true.
Proof.
  destruct (sidebars !! "packagesSidebar") as [its|] eqn:E;
    [|vm_compute in E; discriminate E].
  exists its. split; [reflexivity|].
  destruct (sidebars_shape "packagesSidebar" its E) as (_ & label & items & -> & H).
  split; [reflexivity|]. exists label, items. split; [reflexivity | exact H].
Defined.

End SidebarsFacts.

(** ** ScrollProgress: further behaviour of the percentage *)

Section ScrollProgressMore.

Import ScrollProgress.
Local Open Scope Q_scope.

Lemma stored_finite (s : ScrollState) (st : State) :
  ~ documentHeight s == windowHeight s ->
  scrollProgress (handleScroll s st)
  = Math_min (Finite (scrollTop s / (documentHeight s + - windowHeight s) * 100))
             (Finite 100).
Proof.
  intros H. unfold handleScroll, setScrollProgress. cbn [scrollProgress].
  rewrite scrollPercentage_finite by exact H. reflexivity.
Qed.

Lemma Math_min_finite_mono (a b c : Q) :
  a <= b -> le (Math_min (Finite a) (Finite c)) (Math_min (Finite b) (Finite c)).
Proof.
  intros Hab. simpl.
  destruct (Qle_bool a c) eqn:Ea, (Qle_bool b c) eqn:Eb; simpl;
    try apply Qle_bool_iff in Ea; try apply Qle_bool_iff in Eb;
    try apply Qle_bool_false in Ea; try apply Qle_bool_false in Eb; lra.
Qed.

(** X1.  On a document taller than the window the stored progress never
    decreases when the scroll position grows, the heights being the same. *)
Theorem handleScroll_monotone (s1 s2 : ScrollState) (st1 st2 : State) :
  windowHeight s1 == windowHeight s2 ->
  documentHeight s1 == documentHeight s2 ->
  windowHeight s1 < documentHeight s1 ->
  scrollTop s1 <= scrollTop s2 ->
  le (scrollProgress (handleScroll s1 st1)) (scrollProgress (handleScroll s2 st2)).
Proof.
  intros Hw Hd Hlt Ht.
  rewrite !stored_finite by lra.
  apply Math_min_finite_mono.
  set (d1 := documentHeight s1 + - windowHeight s1).
  set (d2 := documentHeight s2 + - windowHeight s2).
  assert (Hd12 : d2 == d1) by (unfold d1, d2; lra).
  assert (Hpos : 0 < d1) by (unfold d1; lra).
  unfold Qdiv. rewrite Hd12.
  apply Qmult_le_compat_r; [|lra].
  apply Qmult_le_compat_r; [exact Ht|].
  apply Qlt_le_weak, Qinv_lt_0_compat, Hpos.
Qed.

Lemma handleScroll_monotone_witness :
  let s1 := {| windowHeight := 800; documentHeight := 2000; scrollTop := 300 |} in
  let s2 := {| windowHeight := 800; documentHeight := 2000; scrollTop := 900 |} in
  scrollTop s1 <= scrollTop s2
  /\ le (scrollProgress (handleScroll s1 initial))
        (scrollProgress (handleScroll s2 initial)).
Proof.
  intros s1 s2.
  assert (Ht : scrollTop s1 <= scrollTop s2) by (vm_compute; discriminate).
  split; [exact Ht|].
  apply (handleScroll_monotone s1 s2 initial initial);
    [reflexivity | reflexivity | reflexivity | exact Ht].
Defined.

(** X2.  On a document taller than the window, every scroll position at or
    past the bottom (an overscroll below the page) stores exactly 100. *)
Theorem handleScroll_past_bottom (s : ScrollState) (st : State) :
  windowHeight s < documentHeight s ->
  documentHeight s - windowHeight s <= scrollTop s ->
  scrollProgress (handleScroll s st) =n= Finite 100.
Proof.
  intros Hlt Ht. rewrite stored_finite by lra.
  set (d := documentHeight s + - windowHeight s).
  assert (Hpos : 0 < d) by (unfold d; lra).
  assert (H1 : 1 <= scrollTop s / d).
  { apply Qle_shift_div_l; [exact Hpos|]. unfold d. lra. }
  simpl. destruct (Qle_bool (scrollTop s / d * 100) 100) eqn:E; simpl.
  - apply Qle_bool_iff in E. lra.
  - reflexivity.
Qed.

Lemma handleScroll_past_bottom_witness :
  let s := {| windowHeight := 800; documentHeight := 2000; scrollTop := 1260 |} in
  windowHeight s < documentHeight s
  /\ documentHeight s - windowHeight s <= scrollTop s
  /\ scrollProgress (handleScroll s initial) =n= Finite 100.
Proof.
  intros s.
  assert (Hlt : windowHeight s < documentHeight s) by reflexivity.
  assert (Ht : documentHeight s - windowHeight s <= scrollTop s)
    by (vm_compute; discriminate).
  split; [exact Hlt|]. split; [exact Ht|].
  exact (handleScroll_past_bottom s initial Hlt Ht).
Defined.

(** X3.  When the document is exactly as high as the window and the scroll
    position is not zero, the division by zero gives an infinity: a positive
    position stores 100 (the infinity is cut by [Math.min]), a negative one
    stores [-Infinity]. *)
Theorem handleScroll_nonzero_over_zero (s : ScrollState) (st : State) :
  documentHeight s == windowHeight s ->
  (0 < scrollTop s ->
   scrollPercentage s = PosInfinity
   /\ scrollProgress (handleScroll s st) = Finite 100)
  /\ (scrollTop s < 0 ->
      scrollPercentage s = NegInfinity
      /\ scrollProgress (handleScroll s st) = NegInfinity).
Proof.
  intros Hh.
  assert (E : Qeq_bool (documentHeight s + - windowHeight s) 0 = true)
    by (apply Qeq_bool_iff; lra).
  unfold handleScroll, setScrollProgress, scrollPercentage, sub.
  cbn [scrollProgress neg add div]. rewrite E. unfold signed_inf, Qsign.
  split; intros Ht.
  - destruct (Qcompare_spec (scrollTop s) 0); [lra | lra |].
    split; reflexivity.
  - destruct (Qcompare_spec (scrollTop s) 0); [lra | | lra].
    split; reflexivity.
Qed.

Lemma handleScroll_nonzero_over_zero_witness :
  let s := {| windowHeight := 800; documentHeight := 800; scrollTop := 12 |} in
  documentHeight s == windowHeight s
  /\ 0 < scrollTop s
  /\ scrollProgress (handleScroll s initial) = Finite 100.
Proof.
  intros s.
  assert (Hh : documentHeight s == windowHeight s) by reflexivity.
  assert (Ht : 0 < scrollTop s) by reflexivity.
  split; [exact Hh|]. split; [exact Ht|].
  exact (proj2 (proj1 (handleScroll_nonzero_over_zero s initial Hh) Ht)).
Defined.

(** X17.  At the top of a page whose height differs from the window's
    the stored progress is 0. *)
Theorem handleScroll_top (s : ScrollState) (st : State) :
  ~ documentHeight s == windowHeight s ->
  scrollTop s == 0 ->
  scrollProgress (handleScroll s st) =n= Finite 0.
Proof.
  intros Hh Ht. rewrite stored_finite by exact Hh.
  set (d := documentHeight s + - windowHeight s).
  assert (Hp : scrollTop s / d * 100 == 0).
  { rewrite Ht. unfold Qdiv. ring. }
  simpl. destruct (Qle_bool (scrollTop s / d * 100) 100) eqn:E; simpl.
  - exact Hp.
  - apply Qle_bool_false in E. lra.
Qed.

Lemma handleScroll_top_witness :
  let s := {| windowHeight := 800; documentHeight := 2000; scrollTop := 0 |} in
  ~ documentHeight s == windowHeight s
  /\ scrollTop s == 0
  /\ scrollProgress (handleScroll s initial) =n= Finite 0.
Proof.
  intros s.
  assert (Hh : ~ documentHeight s == windowHeight s) by (vm_compute; discriminate).
  assert (Ht : scrollTop s == 0) by reflexivity.
  split; [exact Hh|]. split; [exact Ht|].
  exact (handleScroll_top s initial Hh Ht).
Defined.

Lemma scrollPercentage_zero_over_zero (s : ScrollState) :
  documentHeight s == windowHeight s -> scrollTop s == 0 ->
  scrollPercentage s = NaN.
Proof.
  intros Hh Ht.
  assert (H : is_NaN (scrollPercentage s) = true)
    by (apply scrollPercentage_NaN_iff; split; assumption).
  destruct (scrollPercentage s); try discriminate H. reflexivity.
Qed.

End ScrollProgressMore.

(** ** ScrollProgress: the mounted and the unmounted component *)

Section LifecycleFacts.

Import ScrollProgress ScrollProgressView.

Implicit Types (l : EventListener) (h : nat) (w : Window) (i : Instance).

Lemma run_snoc (tr : list action) (a : action) (wi : Window * Instance) :
  run (tr ++ [a]) wi = step a (run tr wi).
Proof. unfold run. rewrite foldl_app. reflexivity. Qed.

(** X4.  While the component is mounted, whatever scroll events and
    listener changes of other code came before, a scroll event stores the
    percentage of the metrics at that event: the listener is still there and
    the previous progress does not matter. *)
Theorem mounted_scroll_updates w h (tr : list action) (m : ScrollState) :
  (forall l, l ∈ listeners w -> callback l ≠ h) ->
  Forall (foreign_action h) tr ->
  scrollProgress (state (run (tr ++ [Scroll m]) (mount h w)).2)
  = Math_min (scrollPercentage m) (Finite 100).
Proof.
  intros Hfresh Htr. rewrite run_snoc.
  pose proof (mount_only_listener h w Hfresh) as Ho.
  destruct (run_invariant tr (mount h w).1 (mount h w).2 h Htr eq_refl Ho)
    as [Hh Hl].
  change ((mount h w).1, (mount h w).2) with (mount h w) in Hh, Hl.
  destruct (run tr (mount h w)) as [w' i']. simpl in Hh, Hl |- *.
  unfold dispatch_scroll. cbn [listeners metrics].
  rewrite decide_True; [reflexivity|].
  rewrite Hh. unfold only_listener in Hl.
  assert (Hin : scroll_listener h ∈ filter (fun l => callback l = h) (listeners w'))
    by (rewrite Hl; left).
  apply list_elem_of_filter in Hin. tauto.
Qed.

Lemma mounted_scroll_updates_witness :
  let m := {| windowHeight := 800; documentHeight := 2000; scrollTop := 300 |} in
  (forall l, l ∈ listeners example_window -> callback l ≠ 7)
  /\ Forall (foreign_action 7) example_trace
  /\ scrollProgress (state (run (example_trace ++ [Scroll m]) (mount 7 example_window)).2)
     =n= Finite 25.
Proof.
  intros m.
  assert (Hfresh : forall l, l ∈ listeners example_window -> callback l ≠ 7).
  { intros l Hl. simpl in Hl.
    apply elem_of_cons in Hl as [->|Hl]; [simpl; lia|].
    apply elem_of_cons in Hl as [->|Hl]; [simpl; lia|].
    apply elem_of_nil in Hl. destruct Hl. }
  assert (Htr : Forall (foreign_action 7) example_trace).
  { unfold example_trace. repeat constructor; simpl; lia. }
  split; [exact Hfresh|]. split; [exact Htr|].
  rewrite (mounted_scroll_updates example_window 7 example_trace m Hfresh Htr).
  reflexivity.
Defined.

Lemma step_unregistered (a : action) w i h :
  foreign_action h a -> handler i = h ->
  filter (fun l => callback l = h) (listeners w) = [] ->
  (step a (w, i)).2 = i
  /\ filter (fun l => callback l = h) (listeners (step a (w, i)).1) = [].
Proof.
  intros Ha Hh Hw. destruct a as [m|l|l]; simpl.
  - split; [|exact Hw]. unfold dispatch_scroll. cbn [listeners].
    rewrite decide_False; [reflexivity|].
    apply (filter_nil_not_elem_of _ _ _ Hw). rewrite Hh. reflexivity.
  - split; [reflexivity|]. case_decide; [exact Hw|].
    rewrite filter_app, Hw. rewrite filter_cons_False by exact Ha. reflexivity.
  - split; [reflexivity|].
    rewrite remove_listener_filter_other by exact Ha. exact Hw.
Qed.

Lemma run_unregistered (tr : list action) w i h :
  Forall (foreign_action h) tr -> handler i = h ->
  filter (fun l => callback l = h) (listeners w) = [] ->
  (run tr (w, i)).2 = i
  /\ filter (fun l => callback l = h) (listeners (run tr (w, i)).1) = [].
Proof.
  unfold run. revert w.
  induction tr as [|a tr IH]; intros w Htr Hh Hw; cbn [foldl].
  - split; [reflexivity | exact Hw].
  - apply Forall_cons in Htr as [Ha Htr'].
    destruct (step_unregistered a w i h Ha Hh Hw) as [Hs Hs'].
    destruct (step a (w, i)) as [w' i']. simpl in Hs, Hs'. subst i'.
    apply IH; assumption.
Qed.

(** X5.  After the cleanup the component is never updated again: whatever
    scroll events and listener changes of other code follow the unmount, the
    instance keeps the state it had, and no listener of it comes back. *)
Theorem unmounted_never_updates w h (tr tr' : list action) :
  (forall l, l ∈ listeners w -> callback l ≠ h) ->
  Forall (foreign_action h) tr ->
  Forall (foreign_action h) tr' ->
  let later := run tr (mount h w) in
  let after := run tr' (unmount later.1 later.2, later.2) in
  after.2 = later.2 /\ registered_by after.2 after.1 = [].
Proof.
  intros Hfresh Htr Htr' later after.
  pose proof (mount_only_listener h w Hfresh) as Ho.
  destruct (run_invariant tr (mount h w).1 (mount h w).2 h Htr eq_refl Ho)
    as [Hh Hl].
  change (run tr ((mount h w).1, (mount h w).2)) with later in Hh, Hl.
  assert (Hgone : filter (fun l => callback l = h)
                    (listeners (unmount later.1 later.2)) = []).
  { unfold unmount. simpl. rewrite Hh.
    apply remove_listener_filter_only. exact Hl. }
  destruct (run_unregistered tr' _ later.2 h Htr' Hh Hgone) as [H1 H2].
  fold after in H1, H2. split; [exact H1|].
  unfold registered_by. rewrite H1, Hh. exact H2.
Qed.

Lemma unmounted_never_updates_witness :
  let later := run example_trace (mount 7 example_window) in
  let after := run example_trace (unmount later.1 later.2, later.2) in
  (forall l, l ∈ listeners example_window -> callback l ≠ 7)
  /\ Forall (foreign_action 7) example_trace
  /\ after.2 = later.2.
Proof.
  intros later after.
  assert (Hfresh : forall l, l ∈ listeners example_window -> callback l ≠ 7).
  { intros l Hl. simpl in Hl.
    apply elem_of_cons in Hl as [->|Hl]; [simpl; lia|].
    apply elem_of_cons in Hl as [->|Hl]; [simpl; lia|].
    apply elem_of_nil in Hl. destruct Hl. }
  assert (Htr : Forall (foreign_action 7) example_trace).
  { unfold example_trace. repeat constructor; simpl; lia. }
  split; [exact Hfresh|]. split; [exact Htr|].
  exact (proj1 (unmounted_never_updates example_window 7 example_trace
                  example_trace Hfresh Htr Htr)).
Defined.

Lemma mount_unmount_listeners w h :
  (forall l, l ∈ listeners w -> callback l ≠ h) ->
  listeners (mount_unmount w h) = listeners w.
Proof.
  intros Hfresh. unfold mount_unmount, mount, unmount. simpl.
  assert (Hn : scroll_listener h ∉ listeners w).
  { intros Hin. apply (Hfresh _ Hin). reflexivity. }
  rewrite decide_False by exact Hn. apply remove_listener_last, Hn.
Qed.

(** X6.  Mounting and unmounting leaks nothing: after any number of mount
    and cleanup rounds, each with a closure that the window does not know,
    the window has the listeners it started with, and the next mount adds
    its single listener to them. *)
Theorem remount_single_listener w (hs : list nat) h :
  (forall h', h' ∈ h :: hs -> forall l, l ∈ listeners w -> callback l ≠ h') ->
  listeners (mount_unmount_all hs w) = listeners w
  /\ listeners (mount h (mount_unmount_all hs w)).1
     = listeners w ++ [scroll_listener h].
Proof.
  intros Hfresh.
  assert (Hall : listeners (mount_unmount_all hs w) = listeners w).
  { assert (Hhs : forall h', h' ∈ hs -> forall l, l ∈ listeners w -> callback l ≠ h')
      by (intros h' Hh'; apply Hfresh; right; exact Hh').
    clear Hfresh. unfold mount_unmount_all. revert w Hhs.
    induction hs as [|h0 hs IH]; intros w Hhs; cbn [foldl]; [reflexivity|].
    assert (H0 : listeners (mount_unmount w h0) = listeners w).
    { apply mount_unmount_listeners. apply Hhs. left. }
    rewrite IH; [exact H0|].
    intros h' Hh' l Hl. rewrite H0 in Hl. apply (Hhs h'); [right; exact Hh' | exact Hl]. }
  split; [exact Hall|].
  rewrite mount_listeners; [rewrite Hall; reflexivity|].
  intros l Hl. rewrite Hall in Hl. apply (Hfresh h); [left | exact Hl].
Qed.

Lemma remount_single_listener_witness :
  (forall h', h' ∈ [9; 7; 8] -> forall l, l ∈ listeners example_window -> callback l ≠ h')
  /\ listeners (mount 9 (mount_unmount_all [7; 8] example_window)).1
     = listeners example_window ++ [scroll_listener 9].
Proof.
  assert (Hfresh : forall h', h' ∈ [9; 7; 8] ->
            forall l, l ∈ listeners example_window -> callback l ≠ h').
  { intros h' Hh' l Hl. simpl in Hl.
    assert (Hc : callback l = 1%nat \/ callback l = 2%nat).
    { apply elem_of_cons in Hl as [->|Hl]; [left; reflexivity|].
      apply elem_of_cons in Hl as [->|Hl]; [right; reflexivity|].
      apply elem_of_nil in Hl. destruct Hl. }
    apply elem_of_cons in Hh' as [->|Hh']; [lia|].
    apply elem_of_cons in Hh' as [->|Hh']; [lia|].
    apply elem_of_cons in Hh' as [->|Hh']; [lia|].
    apply elem_of_nil in Hh'. destruct Hh'. }
  split; [exact Hfresh|].
  exact (proj2 (remount_single_listener example_window [7; 8] 9 Hfresh)).
Defined.

(** X7.  On a page exactly as high as the window and not scrolled, the
    initial call of the mount effect already stores NaN, so the bar is
    rendered with the width ['NaN%']. *)
Theorem mount_short_page_width (Number_toString : number -> string) w h :
  Number_toString NaN = "NaN" ->
  (documentHeight (metrics w) == windowHeight (metrics w))%Q ->
  (scrollTop (metrics w) == 0)%Q ->
  scrollProgress (state (mount h w).2) = NaN
  /\ width Number_toString (state (mount h w).2) = "NaN%".
Proof.
  intros Hs Hh Ht.
  assert (E : scrollProgress (state (mount h w).2) = NaN).
  { unfold mount, handleScroll, setScrollProgress. cbn.
    rewrite (scrollPercentage_zero_over_zero _ Hh Ht). reflexivity. }
  split; [exact E|]. unfold width. rewrite E, Hs. reflexivity.
Qed.

Lemma mount_short_page_width_witness :
  let w := {| metrics := {| windowHeight := 800; documentHeight := 800;
                            scrollTop := 0 |};
              listeners := [] |} in
  ShinyText.Number_toString_integral NaN = "NaN"
  /\ width ShinyText.Number_toString_integral (state (mount 1 w).2) = "NaN%".
Proof.
  intros w.
  assert (Hs : ShinyText.Number_toString_integral NaN = "NaN") by reflexivity.
  split; [exact Hs|].
  apply (mount_short_page_width ShinyText.Number_toString_integral w 1 Hs);
    reflexivity.
Defined.

End LifecycleFacts.

(** ** ShinyText: the class list *)

Section ShinyTextMore.

Import ShinyText Whitespace.


Lemma split_tokens_whitespace (s cur : string) :
  whitespace_only s = true ->
  split_tokens cur s = match cur with EmptyString => [] | _ => [cur] end.
Proof.
  revert cur. induction s as [|c s IH]; intros cur Hs; simpl in *.
  - reflexivity.
  - apply andb_prop in Hs as [Hc Hs]. rewrite Hc.
    destruct cur; rewrite IH by exact Hs; reflexivity.
Qed.

(** X9.  A [className] prop that is omitted, empty or made of whitespace
    only adds no class, although the class string then ends in spaces: the
    class list is [shiny-text], followed by [disabled] when the prop is
    true. *)
Theorem ShinyText_blank_className (Number_toString : number -> string)
    (p : ShinyTextProps) :
  whitespace_only (default "" (className p)) = true ->
  class_tokens (div_className (ShinyText Number_toString p))
  = "shiny-text" :: (if default false (disabled p) then ["disabled"] else []).
Proof.
  intros Hs. simpl. rewrite class_tokens_class_string.
  unfold class_tokens at 1. rewrite split_tokens_whitespace by exact Hs.
  rewrite app_nil_r. reflexivity.
Qed.

Lemma ShinyText_blank_className_witness :
  let p := {| text := "AI-Powered"; disabled := Some true; speed := None;
              className := Some "  " |} in
  whitespace_only (default "" (className p)) = true
  /\ div_className (ShinyText Number_toString_integral p) = "shiny-text disabled   "
  /\ class_tokens (div_className (ShinyText Number_toString_integral p))
     = ["shiny-text"; "disabled"].
Proof.
  intros p.
  assert (Hs : whitespace_only (default "" (className p)) = true) by reflexivity.
  split; [exact Hs|]. split; [reflexivity|].
  exact (ShinyText_blank_className Number_toString_integral p Hs).
Defined.

End ShinyTextMore.

(** ** CatButton: the delayed navigation *)

Section CatButtonFacts.

Import CatButton.

Implicit Types (b : Browser) (e : event) (evs : list event) (tm : Timer).

Lemma filter_split_length {A} (P : A -> Prop) `{!forall x, Decision (P x)}
    (l : list A) :
  (length (filter P l) + length (filter (fun x => ¬ P x) l) = length l)%nat.
Proof.
  induction l as [|x l IH]; [reflexivity|].
  rewrite !filter_cons. destruct (decide (P x)) as [Hp|Hp].
  - rewrite decide_False by tauto. simpl. lia.
  - rewrite decide_True by exact Hp. simpl. lia.
Qed.

Lemma paths_replicate (l : list Timer) :
  Forall (fun tm => path tm = quick_start) l ->
  path <$> l = replicate (length l) quick_start.
Proof.
  induction 1 as [|tm l Hp _ IH]; [reflexivity|].
  simpl. rewrite Hp. f_equal. exact IH.
Qed.

Lemma run_cons e evs b : run (e :: evs) b = run evs (step b e).
Proof. reflexivity. Qed.

Lemma step_timers_ok b e : timers_ok b -> timers_ok (step b e).
Proof.
  unfold timers_ok. intros Hb. destruct e as [data|dt]; simpl.
  - unfold onStateChange. case_bool_decide; [|exact Hb].
    simpl. apply Forall_app. split; [exact Hb|].
    apply Forall_singleton. simpl. split; [reflexivity | lia].
  - apply Forall_forall. intros tm Htm.
    apply list_elem_of_filter in Htm as [_ Htm].
    rewrite Forall_forall in Hb. destruct (Hb tm Htm) as [Hp Hd].
    split; [exact Hp | lia].
Qed.

(** One event: what is pushed is pushed to the quick-start route, and
    pushes and pending timers together grow by one exactly at a click. *)
Lemma step_pushed b e :
  timers_ok b ->
  exists n,
    pushed (step b e) = pushed b ++ replicate n quick_start
    /\ (n + length (timers (step b e))
        = length (timers b) + (if is_click e then 1 else 0))%nat.
Proof.
  unfold timers_ok. intros Hb. destruct e as [data|dt]; simpl.
  - exists 0%nat. unfold onStateChange. case_bool_decide; simpl.
    + rewrite app_nil_r, length_app. simpl. split; [reflexivity | lia].
    + rewrite app_nil_r. split; [reflexivity | lia].
  - set (t := (clock b + dt)%nat).
    exists (length (filter (fun tm => ¬ (t < due tm)%nat) (timers b))). split.
    + f_equal. apply paths_replicate.
      apply Forall_forall. intros tm Htm.
      apply list_elem_of_filter in Htm as [_ Htm].
      rewrite Forall_forall in Hb. apply (Hb tm Htm).
    + pose proof (filter_split_length (fun tm => (t < due tm)%nat) (timers b)).
      lia.
Qed.

Lemma run_pushed evs b :
  timers_ok b ->
  timers_ok (run evs b)
  /\ exists n,
      pushed (run evs b) = pushed b ++ replicate n quick_start
      /\ (n + length (timers (run evs b)) = length (timers b) + clicks evs)%nat.
Proof.
  revert b. induction evs as [|e evs IH]; intros b Hb.
  - split; [exact Hb|]. exists 0%nat. simpl.
    rewrite app_nil_r. split; [reflexivity | lia].
  - rewrite run_cons.
    destruct (step_pushed b e Hb) as (n1 & Hp1 & Hl1).
    destruct (IH (step b e) (step_timers_ok b e Hb)) as (Hok & n2 & Hp2 & Hl2).
    split; [exact Hok|]. exists (n1 + n2)%nat. split.
    + rewrite Hp2, Hp1, replicate_add, <- app_assoc. reflexivity.
    + simpl. destruct (is_click e); lia.
Qed.

(** X10.  Every state change that names the click state leads to exactly
    one navigation, and nothing else does: starting without pending timers,
    once 100 milliseconds have passed after the last event of any trace, no
    timer is pending and the history has received the quick-start route as
    many times as the trace has clicks. *)
Theorem CatButton_one_push_per_click evs b :
  timers b = [] ->
  let b' := elapse 100 (run evs b) in
  timers b' = []
  /\ pushed b' = pushed b ++ replicate (clicks evs) quick_start.
Proof.
  intros Hb b'.
  assert (Hok : timers_ok b) by (unfold timers_ok; rewrite Hb; constructor).
  destruct (run_pushed evs b Hok) as (Hok' & n & Hp & Hl).
  rewrite Hb in Hl. simpl in Hl. subst b'. set (r := run evs b) in *.
  unfold timers_ok in Hok'.
  assert (Hdue : forall tm, tm ∈ timers r -> ¬ (clock r + 100 < due tm)%nat).
  { intros tm Htm. rewrite Forall_forall in Hok'.
    destruct (Hok' tm Htm) as [_ Hd]. lia. }
  assert (Hnone : filter (fun tm => (clock r + 100 < due tm)%nat) (timers r) = []).
  { clear -Hdue. induction (timers r) as [|tm l IH]; [reflexivity|].
    rewrite filter_cons_False by (apply Hdue; left).
    apply IH. intros tm' Htm'. apply Hdue. right. exact Htm'. }
  unfold elapse. cbn [timers pushed]. split; [exact Hnone|].
  pose proof (filter_split_length (fun tm => (clock r + 100 < due tm)%nat)
                (timers r)) as Hsplit.
  rewrite Hnone in Hsplit. simpl in Hsplit.
  rewrite paths_replicate.
  - rewrite Hsplit, Hp, <- app_assoc, <- replicate_add. do 2 f_equal. lia.
  - apply Forall_forall. intros tm Htm.
    apply list_elem_of_filter in Htm as [_ Htm].
    rewrite Forall_forall in Hok'. apply (Hok' tm Htm).
Qed.

Lemma CatButton_one_push_per_click_witness :
  let b := {| clock := 0; timers := []; pushed := ["/"] |} in
  let evs := [ StateChange ["idle"]; StateChange ["hover"; "appeared click ex"];
               Elapse 40; StateChange ["appeared click ex"]; Elapse 70 ] in
  timers b = []
  /\ pushed (elapse 100 (run evs b)) = ["/"; quick_start; quick_start].
Proof.
  intros b evs.
  assert (Hb : timers b = []) by reflexivity.
  split; [exact Hb|].
  exact (proj2 (CatButton_one_push_per_click evs b Hb)).
Defined.

Lemma clicks_none evs :
  (forall e, e ∈ evs -> is_click e = false) -> clicks evs = 0%nat.
Proof.
  induction evs as [|e evs IH]; intros H; [reflexivity|].
  simpl. rewrite (H e) by left. apply IH.
  intros e' He'. apply H. right. exact He'.
Qed.

(** X11.  State changes that do not name the click state never navigate
    and set no timer, however much time passes: a state name that merely
    resembles ['appeared click ex'] is not a click. *)
Theorem CatButton_other_states_ignored evs b :
  timers b = [] ->
  (forall e, e ∈ evs -> is_click e = false) ->
  pushed (run evs b) = pushed b /\ timers (run evs b) = [].
Proof.
  intros Hb Hno.
  assert (Hok : timers_ok b) by (unfold timers_ok; rewrite Hb; constructor).
  destruct (run_pushed evs b Hok) as (_ & n & Hp & Hl).
  rewrite Hb, (clicks_none evs Hno) in Hl. simpl in Hl.
  assert (n = 0%nat) by lia. subst n.
  split.
  - rewrite Hp. apply app_nil_r.
  - destruct (timers (run evs b)); [reflexivity | simpl in Hl; lia].
Qed.

Lemma CatButton_other_states_ignored_witness :
  let b := {| clock := 0; timers := []; pushed := ["/"] |} in
  let evs := [ StateChange ["appeared click"]; Elapse 500;
               StateChange ["appeared click ex "; "idle"]; Elapse 500 ] in
  timers b = []
  /\ (forall e, e ∈ evs -> is_click e = false)
  /\ pushed (run evs b) = ["/"].
Proof.
  intros b evs.
  assert (Hb : timers b = []) by reflexivity.
  assert (Hno : forall e, e ∈ evs -> is_click e = false).
  { intros e He. unfold evs in He.
    repeat (apply elem_of_cons in He as [->|He]; [reflexivity|]).
    apply elem_of_nil in He. destruct He. }
  split; [exact Hb|]. split; [exact Hno|].
  exact (proj1 (CatButton_other_states_ignored evs b Hb Hno)).
Defined.

Lemma run_too_early evs b (c0 : nat) :
  (c0 <= clock b)%nat ->
  Forall (fun tm => (c0 + 100 <= due tm)%nat) (timers b) ->
  (clock b + elapsed evs < c0 + 100)%nat ->
  pushed (run evs b) = pushed b.
Proof.
  revert b. induction evs as [|e evs IH]; intros b Hc Ht Hlt; [reflexivity|].
  rewrite run_cons. destruct e as [data|dt]; simpl in Hlt |- *.
  - unfold onStateChange. case_bool_decide.
    + rewrite IH; [reflexivity | exact Hc | | exact Hlt].
      simpl. apply Forall_app. split; [exact Ht|].
      apply Forall_singleton. simpl. lia.
    + apply IH; assumption.
  - rewrite IH.
    + simpl.
      assert (Hnone : filter (fun tm => ¬ (clock b + dt < due tm)%nat) (timers b) = []).
      { clear -Ht Hlt. induction Ht as [|tm l Hd _ IHl]; [reflexivity|].
        rewrite filter_cons_False by lia. exact IHl. }
      rewrite Hnone. simpl. apply app_nil_r.
    + simpl. lia.
    + simpl. apply Forall_forall. intros tm Htm.
      apply list_elem_of_filter in Htm as [_ Htm].
      rewrite Forall_forall in Ht. apply (Ht tm Htm).
    + simpl. lia.
Qed.

(** X12.  The navigation is never immediate: starting without pending
    timers, as long as less than 100 milliseconds have passed in all, nothing
    is pushed on the history, however many clicks there were. *)
Theorem CatButton_no_push_before_delay evs b :
  timers b = [] ->
  (elapsed evs < 100)%nat ->
  pushed (run evs b) = pushed b.
Proof.
  intros Hb Hlt. apply (run_too_early evs b (clock b)).
  - lia.
  - rewrite Hb. constructor.
  - lia.
Qed.

Lemma CatButton_no_push_before_delay_witness :
  let b := {| clock := 0; timers := []; pushed := ["/"] |} in
  let evs := [ StateChange ["appeared click ex"]; Elapse 60;
               StateChange ["appeared click ex"]; Elapse 39 ] in
  timers b = [] /\ (elapsed evs < 100)%nat /\ pushed (run evs b) = ["/"]
  /\ length (timers (run evs b)) = 2%nat.
Proof.
  intros b evs.
  assert (Hb : timers b = []) by reflexivity.
  assert (Hlt : (elapsed evs < 100)%nat) by (vm_compute; lia).
  split; [exact Hb|]. split; [exact Hlt|].
  split; [exact (CatButton_no_push_before_delay evs b Hb Hlt) | reflexivity].
Defined.

End CatButtonFacts.

(** ** HomepageFeatures: the row of cards *)

Section FeatureRowFacts.

Import HomepageFeatures.

Context {ReactNode : Type}.

Lemma feature_row_keys (FeatureList : list (FeatureItem ReactNode)) :
  (feature_row ReactNode FeatureList).*1 = seq 0 (length FeatureList).
Proof.
  unfold feature_row. rewrite fmap_imap.
  rewrite (imap_ext _ (fun j _ => id j)) by reflexivity.
  rewrite imap_seq_0. apply list_fmap_id.
Qed.

(** X13.  The features row has one card per entry of the list, in the
    order of the list; the React keys are the positions [0 .. n-1], hence
    pairwise distinct; and the card at a position shows the title, emoji and
    description of the entry at that position and paints both the emoji
    circle and the heading with the entry's gradient. *)
Theorem feature_row_cards (FeatureList : list (FeatureItem ReactNode)) :
  length (feature_row ReactNode FeatureList) = length FeatureList
  /\ NoDup (feature_row ReactNode FeatureList).*1
  /\ forall idx props,
      FeatureList !! idx = Some props ->
      exists card,
        feature_row ReactNode FeatureList !! idx = Some (idx, card)
        /\ heading_child _ card = title _ props
        /\ circle_child _ card = emoji _ props
        /\ paragraph_child _ card = description _ props
        /\ circle_background _ card = gradient _ props
        /\ heading_background _ card = gradient _ props.
Proof.
  split; [apply length_imap|]. split.
  - rewrite feature_row_keys. apply NoDup_seq.
  - intros idx props H. exists (Feature _ props). split.
    + unfold feature_row. rewrite list_lookup_imap, H. reflexivity.
    + repeat split.
Qed.

End FeatureRowFacts.

(** Two entries of the list, with their descriptions as plain text. *)
Lemma feature_row_cards_witness :
  let FeatureList :=
    [ {| HomepageFeatures.title := "⚡ Lightning Fast";
         HomepageFeatures.emoji := "⚡";
         HomepageFeatures.description := "Built with performance in mind.";
         HomepageFeatures.gradient := "linear-gradient(135deg, #667eea 0%, #764ba2 100%)" |};
      {| HomepageFeatures.title := "🎯 Type-Safe";
         HomepageFeatures.emoji := "🎯";
         HomepageFeatures.description := "Fully typed with TypeScript.";
         HomepageFeatures.gradient := "linear-gradient(135deg, #f093fb 0%, #f5576c 100%)" |} ] in
  FeatureList !! 1%nat = Some {| HomepageFeatures.title := "🎯 Type-Safe";
         HomepageFeatures.emoji := "🎯";
         HomepageFeatures.description := "Fully typed with TypeScript.";
         HomepageFeatures.gradient := "linear-gradient(135deg, #f093fb 0%, #f5576c 100%)" |}
  /\ exists card,
      HomepageFeatures.feature_row string FeatureList !! 1%nat = Some (1%nat, card)
      /\ HomepageFeatures.heading_background _ card
         = "linear-gradient(135deg, #f093fb 0%, #f5576c 100%)".
Proof.
  intros FeatureList.
  assert (H : FeatureList !! 1%nat = Some {| HomepageFeatures.title := "🎯 Type-Safe";
         HomepageFeatures.emoji := "🎯";
         HomepageFeatures.description := "Fully typed with TypeScript.";
         HomepageFeatures.gradient := "linear-gradient(135deg, #f093fb 0%, #f5576c 100%)" |})
    by reflexivity.
  split; [exact H|].
  destruct (proj2 (proj2 (feature_row_cards FeatureList)) _ _ H)
    as (card & Hc & _ & _ & _ & _ & Hg).
  exists card. split; [exact Hc | exact Hg].
Defined.

(** ** Navigation *)

Section NavigationFacts.

Import Sidebars Navigation.

(** X14.  Every [docSidebar] item of the navbar names a sidebar that the
    sidebars object defines. *)
Theorem navbar_sidebars_exist (sidebarId position label : string) :
  DocSidebar sidebarId position label ∈ navbar_items ->
  is_Some (sidebars !! sidebarId).
Proof.
  unfold navbar_items. intros H.
  repeat (apply elem_of_cons in H as [H|H];
    [ first [ discriminate H
            | injection H as -> -> ->;
              apply (bool_decide_unpack _); vm_compute; reflexivity ]
    | ]).
  apply elem_of_nil in H. destruct H.
Qed.

Lemma navbar_sidebars_exist_witness :
  DocSidebar "apiSidebar" "left" "API Reference" ∈ navbar_items
  /\ is_Some (sidebars !! "apiSidebar").
Proof.
  assert (H : DocSidebar "apiSidebar" "left" "API Reference" ∈ navbar_items).
  { unfold navbar_items. do 2 right. left. }
  split; [exact H|].
  exact (navbar_sidebars_exist "apiSidebar" "left" "API Reference" H).
Defined.

(** X15.  No document is listed twice in the sidebars, within one sidebar
    or across them, and no category, at any depth, is empty. *)
Theorem sidebars_docs_distinct :
  NoDup all_doc_ids
  /\ Forall (fun c => items_of c ≠ []) all_categories.
Proof.
  split.
  - apply (bool_decide_unpack _). vm_compute. reflexivity.
  - unfold all_categories, sidebars_entries. simpl.
    repeat constructor; discriminate.
Qed.

Local Ltac names id :=
  exists id; split;
  [ apply (bool_decide_unpack _); vm_compute; reflexivity
  | first [ left; reflexivity | right; reflexivity ] ].

(** X16.  Every internal link written in the code (the [to] links of the
    footer, the two links of the home page and the route pushed by the cat
    button) names a document that the sidebars list: it is [/docs/] followed
    by a listed document id, or by the directory of a listed [index]
    document and a slash. *)
Theorem internal_links_listed (link : string) :
  link ∈ internal_links ->
  exists id, id ∈ all_doc_ids /\ names_document link id.
Proof.
  intros H. vm_compute in H.
  apply elem_of_cons in H as [->|H]; [names "getting-started/installation"|].
  apply elem_of_cons in H as [->|H]; [names "core-concepts/overview"|].
  apply elem_of_cons in H as [->|H]; [names "api/reference"|].
  apply elem_of_cons in H as [->|H]; [names "packages/overview/index"|].
  apply elem_of_cons in H as [->|H]; [names "packages/core/index"|].
  apply elem_of_cons in H as [->|H]; [names "packages/react/index"|].
  apply elem_of_cons in H as [->|H]; [names "platforms/core"|].
  apply elem_of_cons in H as [->|H]; [names "platforms/react"|].
  apply elem_of_cons in H as [->|H]; [names "getting-started/installation"|].
  apply elem_of_cons in H as [->|H]; [names "examples/minimal-example"|].
  apply elem_of_cons in H as [->|H]; [names "getting-started/quick-start"|].
  apply elem_of_nil in H. destruct H.
Qed.

Lemma internal_links_listed_witness :
  CatButton.quick_start ∈ internal_links
  /\ exists id, id ∈ all_doc_ids /\ names_document CatButton.quick_start id.
Proof.
  assert (H : CatButton.quick_start ∈ internal_links)
    by (apply (bool_decide_unpack _); vm_compute; reflexivity).
  split; [exact H|].
  exact (internal_links_listed CatButton.quick_start H).
Defined.

End NavigationFacts.
